(** * GopherAI: the RAG glue package and the user DAO

    A shallow embedding of the two Go source files of the repository:

    - package [rag]  (indexing pipeline, retrieval pipeline, prompt builder),
    - package [user] (the DAO functions [IsExistUser] and [Register]).

    Conventions of the embedding.

    - A Go [string] is a sequence of bytes: Rocq's [string] (one [ascii] per
      byte, UTF-8 text written as it is in the source).
    - A Go result [(T, error)] is a pair [T * option error]; a [nil] error is
      [None].  A pointer that the code compares with [nil] is an [option]; a
      pointer that the code dereferences without a test is modelled by the
      value it points to.
    - A Go [map[string]T] is a [gmap string T]; a [nil] map and an empty map
      read the same and both are [∅].
    - [context.Context] arguments carry nothing that the code reads and are
      left out.
    - Calls that leave the package (file system, configuration, embedding
      provider, Redis, MySQL) are operations of a type class over an abstract
      world.  Every such call is threaded through a small state monad that
      also records, in order, which call was made with which arguments and
      what it answered. *)

From Stdlib Require Import ZArith String Ascii DecimalString.
From stdpp Require Import base option strings list gmap fin_maps.

Open Scope string_scope.

(** ** Effects: a state monad with a call trace *)

Module eff.
Section Monad.
Context {W E : Type}.

Record state := State { world : W; trace : list E }.

Definition M (A : Type) : Type := state -> A * state.

Definition ret {A} (a : A) : M A := fun s => (a, s).

Definition bind {A B} (m : M A) (k : A -> M B) : M B :=
  fun s => let (a, s') := m s in k a s'.

(** Read something from the world without changing it (a global variable,
    the process environment, the loaded configuration). *)
Definition ask {A} (f : W -> A) : M A := fun s => (f (world s), s).

(** Perform an outside call [op] and append the event [ev r] built from
    its answer [r] to the trace. *)
Definition call {R} (op : W -> R * W) (ev : R -> E) : M R :=
  fun s =>
    let (r, w') := op (world s) in
    (r, State w' (trace s ++ [ev r])).

Definition run {A} (m : M A) (w : W) : A * state := m (State w []).
End Monad.

Arguments state : clear implicits.
Arguments M : clear implicits.

#[export] Instance M_ret {W E} : MRet (M W E) := @ret W E.
#[export] Instance M_bind {W E} : MBind (M W E) := fun _ _ k m => bind m k.
End eff.
Export eff.

(** ** Go values shared by both packages *)

(** The [error] interface.  [ErrRecordNotFound] is the sentinel
    [gorm.ErrRecordNotFound]; [errorString] is any error made from a message
    ([errors.New], [fmt.Errorf] without [%w], an error of a client library);
    [wrapError] is what [fmt.Errorf] builds for a format with [%w]. *)
Inductive error : Type :=
| ErrRecordNotFound
| errorString (msg : string)
| wrapError (msg : string) (err : error).

#[export] Instance error_eq_dec : EqDecision error.
Proof. solve_decision. Defined.

(** [err.Error()]. *)
Definition Error (e : error) : string :=
  match e with
  | ErrRecordNotFound => "record not found"
  | errorString msg => msg
  | wrapError msg _ => msg
  end.

(** [errors.Unwrap]. *)
Definition Unwrap (e : error) : option error :=
  match e with
  | wrapError _ err => Some err
  | _ => None
  end.

(** [errors.Is err target]: [target] occurs in the chain of [err]. *)
Fixpoint errors_Is (e target : error) : bool :=
  bool_decide (e = target) ||
  match e with
  | wrapError _ err => errors_Is err target
  | _ => false
  end.

(** [fmt.Errorf(prefix + "%w", err)]. *)
Definition Errorf_w (prefix : string) (err : error) : error :=
  wrapError (prefix ++ Error err) err.

(** [fmt.Errorf(prefix + "%s", s)]: no wrapped error. *)
Definition Errorf_s (prefix s : string) : error := errorString (prefix ++ s).

(** The verb [%d] of package [fmt] on an [int]. *)
Definition fmt_d (z : Z) : string := NilZero.string_of_int (Z.to_int z).

(** The line feed of the source text. *)
Definition LF : string := String "010"%char EmptyString.

(** A value of interface type [any]: its dynamic type and value.  [AnyNil]
    is the [nil] interface. *)
Inductive any : Type :=
| AnyNil
| AnyString (s : string)
| AnyInt (z : Z)
| AnyBool (b : bool).

(** The type assertion [v.(string)] in its two-result form, applied to the
    result of a map read ([None] when the key is absent, for which Go yields
    the [nil] interface). *)
Definition assert_string (v : option any) : string * bool :=
  match v with
  | Some (AnyString s) => (s, true)
  | _ => ("", false)
  end.

(** Package [schema] of eino. *)
Module schema.
Record Document := {
  ID : string;
  Content : string;
  MetaData : gmap string any
}.
End schema.

(** Package [redis] of go-redis: a search hit. *)
Module redisCli.
Record Document := {
  ID : string;
  Fields : gmap string string
}.
End redisCli.

(** Package [redisIndexer] of eino-ext.  A field left out of a struct
    literal has Go's zero value: [EmbedKey] is then the empty string, which
    the indexer reads as "store the value as it is, no embedding". *)
Module redisIndexer.
Record FieldValue := {
  Value : string;
  EmbedKey : string
}.

Record Hashes := {
  Key : string;
  Field2Value : gmap string FieldValue
}.

Record IndexerConfig {RedisClient Embedder : Type} := {
  Client : RedisClient;
  KeyPrefix : string;
  BatchSize : Z;
  DocumentToHashes : schema.Document -> Hashes * option error;
  Embedding : Embedder
}.
Arguments IndexerConfig : clear implicits.
End redisIndexer.

(** Package [redisRetriever] of eino-ext. *)
Module redisRetriever.
Record RetrieverConfig {RedisClient Embedder : Type} := {
  Client : RedisClient;
  Index : string;
  Dialect : Z;
  ReturnFields : list string;
  TopK : Z;
  VectorField : string;
  DocumentConverter : redisCli.Document -> schema.Document * option error;
  Embedding : Embedder
}.
Arguments RetrieverConfig : clear implicits.
End redisRetriever.

(** Package [embeddingArk] of eino-ext. *)
Module embeddingArk.
Record EmbeddingConfig := {
  BaseURL : string;
  APIKey : string;
  Model : string
}.
End embeddingArk.

(** Package [config]: the part of the loaded configuration that [rag] reads. *)
Module config.
Record RagModelConfig := {
  RagDimension : Z;
  RagBaseUrl : string;
  RagEmbeddingModel : string
}.

Record Config := {
  RagModelConfig_ : RagModelConfig
}.
End config.

(** Package [os]: a directory entry as [os.ReadDir] lists it. *)
Module os.
Record DirEntry := {
  Name : string;
  IsDir : bool
}.
End os.

(** ** Package [rag] *)

Module rag.

(** Everything [rag] calls outside itself.  [World] is the state of the
    outside: files, environment, configuration, Redis, the embedding
    provider.  [Embedder], [Indexer], [Retriever] and [RedisClient] are the
    handles of the client libraries; the package only passes them on. *)
Class External := {
  World : Type;
  Embedder : Type;
  Indexer : Type;
  Retriever : Type;
  RedisClient : Type;
  os_Getenv : string -> World -> string;
  os_ReadFile : string -> World -> (string * option error) * World;
  os_ReadDir : string -> World -> (list os.DirEntry * option error) * World;
  config_GetConfig : World -> config.Config;
  embeddingArk_NewEmbedder :
    embeddingArk.EmbeddingConfig -> World -> (Embedder * option error) * World;
  redisPkg_Rdb : World -> RedisClient;
  redisPkg_InitRedisIndex : string -> Z -> World -> option error * World;
  redisPkg_DeleteRedisIndex : string -> World -> option error * World;
  redis_GenerateIndexNamePrefix : string -> string;
  redis_GenerateIndexName : string -> string;
  redisIndexer_NewIndexer :
    redisIndexer.IndexerConfig RedisClient Embedder ->
    World -> (Indexer * option error) * World;
  Indexer_Store :
    Indexer -> list schema.Document -> World ->
    (list string * option error) * World;
  redisRetriever_NewRetriever :
    redisRetriever.RetrieverConfig RedisClient Embedder ->
    World -> (Retriever * option error) * World;
  Retriever_Retrieve :
    Retriever -> string -> World ->
    (list schema.Document * option error) * World
}.

Section Package.
Context `{External}.

(** One outside call, with its arguments and its answer. *)
Inductive event : Type :=
| EvNewEmbedder (cfg : embeddingArk.EmbeddingConfig)
    (out : Embedder * option error)
| EvInitRedisIndex (filename : string) (dimension : Z) (out : option error)
| EvNewIndexer (cfg : redisIndexer.IndexerConfig RedisClient Embedder)
    (out : Indexer * option error)
| EvReadFile (path : string) (out : string * option error)
| EvStore (idx : Indexer) (docs : list schema.Document)
    (out : list string * option error)
| EvDeleteRedisIndex (filename : string) (out : option error)
| EvReadDir (dir : string) (out : list os.DirEntry * option error)
| EvNewRetriever (cfg : redisRetriever.RetrieverConfig RedisClient Embedder)
    (out : Retriever * option error)
| EvRetrieve (rtr : Retriever) (query : string)
    (out : list schema.Document * option error).

Record RAGIndexer := {
  embedding : Embedder;
  indexer : Indexer
}.

Record RAGQuery := {
  q_embedding : Embedder;
  retriever : Retriever
}.

(** The closure assigned to [DocumentToHashes] in [NewRAGIndexer]; it
    captures [filename]. *)
Definition DocumentToHashes (filename : string) (doc : schema.Document)
  : redisIndexer.Hashes * option error :=
  let source := "" in
  let source :=
    match assert_string (schema.MetaData doc !! "source") with
    | (s, true) => s
    | (_, false) => source
    end in
  ({| redisIndexer.Key := filename ++ ":" ++ schema.ID doc;
      redisIndexer.Field2Value :=
        <["content" := {| redisIndexer.Value := schema.Content doc;
                          redisIndexer.EmbedKey := "vector" |}]>
        (<["metadata" := {| redisIndexer.Value := source;
                            redisIndexer.EmbedKey := "" |}]> ∅) |},
   None).

Definition NewRAGIndexer (filename embeddingModel : string)
  : M World event (option RAGIndexer * option error) :=
  apiKey ← ask (os_Getenv "OPENAI_API_KEY");
  dimension ← ask (fun w =>
    config.RagDimension (config.RagModelConfig_ (config_GetConfig w)));
  baseURL ← ask (fun w =>
    config.RagBaseUrl (config.RagModelConfig_ (config_GetConfig w)));
  let embedConfig :=
    {| embeddingArk.BaseURL := baseURL;
       embeddingArk.APIKey := apiKey;
       embeddingArk.Model := embeddingModel |} in
  '(embedder, err) ← call (embeddingArk_NewEmbedder embedConfig)
                          (EvNewEmbedder embedConfig);
  match err with
  | Some err => mret (None, Some (Errorf_w "failed to create embedder: " err))
  | None =>
    err ← call (redisPkg_InitRedisIndex filename dimension)
               (EvInitRedisIndex filename dimension);
    match err with
    | Some err =>
      mret (None, Some (Errorf_w "failed to init redis index: " err))
    | None =>
      rdb ← ask redisPkg_Rdb;
      let indexerConfig :=
        {| redisIndexer.Client := rdb;
           redisIndexer.KeyPrefix := redis_GenerateIndexNamePrefix filename;
           redisIndexer.BatchSize := 10;
           redisIndexer.DocumentToHashes := DocumentToHashes filename;
           redisIndexer.Embedding := embedder |} in
      '(idx, err) ← call (redisIndexer_NewIndexer indexerConfig)
                         (EvNewIndexer indexerConfig);
      match err with
      | Some err =>
        mret (None, Some (Errorf_w "failed to create indexer: " err))
      | None =>
        mret (Some {| embedding := embedder; indexer := idx |}, None)
      end
    end
  end.

Definition IndexFile (r : RAGIndexer) (filePath : string)
  : M World event (option error) :=
  '(content, err) ← call (os_ReadFile filePath) (EvReadFile filePath);
  match err with
  | Some err => mret (Some (Errorf_w "failed to read file: " err))
  | None =>
    let doc :=
      {| schema.ID := "doc_1";
         schema.Content := content;
         schema.MetaData := {[ "source" := AnyString filePath ]} |} in
    '(_, err) ← call (Indexer_Store (indexer r) [doc])
                     (EvStore (indexer r) [doc]);
    match err with
    | Some err => mret (Some (Errorf_w "failed to store document: " err))
    | None => mret None
    end
  end.

Definition DeleteIndex (filename : string) : M World event (option error) :=
  err ← call (redisPkg_DeleteRedisIndex filename)
             (EvDeleteRedisIndex filename);
  match err with
  | Some err => mret (Some (Errorf_w "failed to delete redis index: " err))
  | None => mret None
  end.

(** The loop of [NewRAGQuery] over the directory listing: [filename] keeps
    its value until the first entry that is not a directory. *)
Fixpoint first_file (files : list os.DirEntry) (filename : string) : string :=
  match files with
  | [] => filename
  | f :: files' =>
    if negb (os.IsDir f) then os.Name f else first_file files' filename
  end.

(** The closure assigned to [DocumentConverter] in [NewRAGQuery].  The
    [range] over the map [doc.Fields] is a fold over its entries; Go leaves
    the order of the visit open, and so does what is proved about the fold
    below, which only uses that every entry is visited once. *)
Definition DocumentConverter (doc : redisCli.Document)
  : schema.Document * option error :=
  let resp :=
    {| schema.ID := redisCli.ID doc;
       schema.Content := "";
       schema.MetaData := ∅ |} in
  let resp :=
    map_fold
      (fun (field val : string) (resp : schema.Document) =>
         if String.eqb field "content"
         then {| schema.ID := schema.ID resp;
                 schema.Content := val;
                 schema.MetaData := schema.MetaData resp |}
         else {| schema.ID := schema.ID resp;
                 schema.Content := schema.Content resp;
                 schema.MetaData :=
                   <[field := AnyString val]> (schema.MetaData resp) |})
      resp (redisCli.Fields doc) in
  (resp, None).

Definition NewRAGQuery (username : string)
  : M World event (option RAGQuery * option error) :=
  cfg ← ask config_GetConfig;
  apiKey ← ask (os_Getenv "OPENAI_API_KEY");
  let embedConfig :=
    {| embeddingArk.BaseURL := config.RagBaseUrl (config.RagModelConfig_ cfg);
       embeddingArk.APIKey := apiKey;
       embeddingArk.Model :=
         config.RagEmbeddingModel (config.RagModelConfig_ cfg) |} in
  '(embedder, err) ← call (embeddingArk_NewEmbedder embedConfig)
                          (EvNewEmbedder embedConfig);
  match err with
  | Some err => mret (None, Some (Errorf_w "failed to create embedder: " err))
  | None =>
    let userDir := "uploads/" ++ username in
    '(files, err) ← call (os_ReadDir userDir) (EvReadDir userDir);
    if bool_decide (err ≠ None) || (Z.of_nat (length files) =? 0)%Z
    then mret (None, Some (Errorf_s "no uploaded file found for user " username))
    else
      let filename := first_file files "" in
      if String.eqb filename ""
      then mret (None, Some (Errorf_s "no valid file found for user " username))
      else
        rdb ← ask redisPkg_Rdb;
        let indexName := redis_GenerateIndexName filename in
        let retrieverConfig :=
          {| redisRetriever.Client := rdb;
             redisRetriever.Index := indexName;
             redisRetriever.Dialect := 2;
             redisRetriever.ReturnFields := ["content"; "metadata"; "distance"];
             redisRetriever.TopK := 5;
             redisRetriever.VectorField := "vector";
             redisRetriever.DocumentConverter := DocumentConverter;
             redisRetriever.Embedding := embedder |} in
        '(rtr, err) ← call (redisRetriever_NewRetriever retrieverConfig)
                           (EvNewRetriever retrieverConfig);
        match err with
        | Some err =>
          mret (None, Some (Errorf_w "failed to create retriever: " err))
        | None =>
          mret (Some {| q_embedding := embedder; retriever := rtr |}, None)
        end
  end.

Definition RetrieveDocuments (r : RAGQuery) (query : string)
  : M World event (list schema.Document * option error) :=
  '(docs, err) ← call (Retriever_Retrieve (retriever r) query)
                      (EvRetrieve (retriever r) query);
  match err with
  | Some err => mret ([], Some (Errorf_w "failed to retrieve documents: " err))
  | None => mret (docs, None)
  end.

(** The loop of [BuildRAGPrompt]: [i] is the index of the head of [docs] in
    the slice, [contextText] the text built so far. *)
Fixpoint contextText_loop (i : Z) (docs : list schema.Document)
  (contextText : string) : string :=
  match docs with
  | [] => contextText
  | doc :: docs' =>
    contextText_loop (i + 1) docs'
      (contextText ++
       ("[文档 " ++ fmt_d (i + 1) ++ "]: " ++ schema.Content doc ++ LF ++ LF))
  end.

Definition BuildRAGPrompt (query : string) (docs : list schema.Document)
  : string :=
  if (Z.of_nat (length docs) =? 0)%Z then query
  else
    let contextText := contextText_loop 0 docs "" in
    "基于以下参考文档回答用户的问题。如果文档中没有相关信息，请说明无法找到相关信息。"
    ++ LF ++ LF ++ "参考文档：" ++ LF ++ contextText ++ LF ++ LF
    ++ "用户问题：" ++ query ++ LF ++ LF ++ "请提供准确、完整的回答：".
End Package.
End rag.

(** Package [model].  The declaration of [model.User] is not part of the
    sources at hand; the record has the fields that package [user] sets. *)
Module model.
Record User := {
  Email : string;
  Name : string;
  Username : string;
  Password : string
}.
End model.

(** ** Package [user] *)

Module user.

(** What the DAO calls outside itself: the three queries of package [mysql]
    over the state [DB] of the relational store, and [utils.MD5]. *)
Class External := {
  DB : Type;
  mysql_GetUserByUsername :
    string -> DB -> (option model.User * option error) * DB;
  mysql_GetUserByEmail :
    string -> DB -> (option model.User * option error) * DB;
  mysql_InsertUser :
    model.User -> DB -> (option model.User * option error) * DB;
  utils_MD5 : string -> string
}.

(** One query, with its argument and its answer. *)
Inductive event : Type :=
| EvGetUserByUsername (username : string)
    (out : option model.User * option error)
| EvGetUserByEmail (email : string) (out : option model.User * option error)
| EvInsertUser (u : model.User) (out : option model.User * option error).

(** The answer recorded in an event. *)
Definition answer (ev : event) : option model.User * option error :=
  match ev with
  | EvGetUserByUsername _ out => out
  | EvGetUserByEmail _ out => out
  | EvInsertUser _ out => out
  end.

Section Package.
Context `{External}.

Definition IsExistUser (username : string)
  : M DB event (bool * option model.User) :=
  '(u, err) ← call (mysql_GetUserByUsername username)
                   (EvGetUserByUsername username);
  if bool_decide (err = None) && bool_decide (u ≠ None) then mret (true, u)
  else if bool_decide (err ≠ None) && bool_decide (err ≠ Some ErrRecordNotFound)
  then mret (false, None)
  else
    '(u, err) ← call (mysql_GetUserByEmail username)
                     (EvGetUserByEmail username);
    if bool_decide (err = None) && bool_decide (u ≠ None) then mret (true, u)
    else if bool_decide (err ≠ None)
            && bool_decide (err ≠ Some ErrRecordNotFound)
    then mret (false, None)
    else mret (false, None).

Definition Register (username email password : string)
  : M DB event (option model.User * bool) :=
  let arg :=
    {| model.Email := email;
       model.Name := username;
       model.Username := username;
       model.Password := utils_MD5 password |} in
  '(user, err) ← call (mysql_InsertUser arg) (EvInsertUser arg);
  match err with
  | Some _ => mret (None, false)
  | None => mret (user, true)
  end.
End Package.
End user.

(** ** A concrete outside world

    One instance of each [External] class, small enough to evaluate.  It
    shows that the hypotheses of the theorems below can be met and serves as
    the store in which concrete runs are computed. *)

Module sim.

Definition ErrStoreUnreachable : error := errorString "store unreachable".

(** Modelled from the spec: the Vector Store collaborator, [create_index]
    and [write]; [redisPkg.InitRedisIndex] is not among the sources.  A
    knowledge base is a named partition whose vector dimension is fixed at
    creation; a call fails with a connectivity error when the store is
    unreachable. *)
Record VectorStore := {
  reachable : bool;
  bases : gmap string Z;
  records : gmap string redisIndexer.Hashes
}.

(** Modelled from the spec: [create_index(name, dimension)] of the Vector
    Store; an existing knowledge base keeps its dimension. *)
Definition create_index (name : string) (dimension : Z) (st : VectorStore)
  : option error * VectorStore :=
  if negb (reachable st) then (Some ErrStoreUnreachable, st)
  else
    match bases st !! name with
    | Some _ => (None, st)
    | None =>
      (None, {| reachable := reachable st;
                bases := <[name := dimension]> (bases st);
                records := records st |})
    end.

(** A stand-in for [redisPkg.DeleteRedisIndex], whose source is not at
    hand: the named knowledge base is taken out of the store.  Neither the
    sources nor the spec say what the store answers for a name it does not
    hold; this instance has no case of its own for it, and no statement of
    this file rests on what it answers there. *)
Definition delete_index (name : string) (st : VectorStore)
  : option error * VectorStore :=
  if negb (reachable st) then (Some ErrStoreUnreachable, st)
  else
    (None, {| reachable := reachable st;
              bases := delete name (bases st);
              records := records st |}).

(** Modelled from the spec: [write(records)] of the Vector Store. *)
Definition write (recs : list redisIndexer.Hashes) (st : VectorStore)
  : option error * VectorStore :=
  if negb (reachable st) then (Some ErrStoreUnreachable, st)
  else
    (None, {| reachable := reachable st;
              bases := bases st;
              records :=
                foldl (fun m h => <[redisIndexer.Key h := h]> m)
                      (records st) recs |}).

Record world := {
  env : gmap string string;
  conf : config.Config;
  files : gmap string string;
  dirs : gmap string (list os.DirEntry);
  store : VectorStore
}.

Definition with_store (w : world) (st : VectorStore) : world :=
  {| env := env w; conf := conf w; files := files w; dirs := dirs w;
     store := st |}.

Definition ReadFile (path : string) (w : world)
  : (string * option error) * world :=
  match files w !! path with
  | Some content => ((content, None), w)
  | None =>
    (("", Some (errorString ("open " ++ path ++ ": no such file or directory"))),
     w)
  end.

Definition ReadDir (dir : string) (w : world)
  : (list os.DirEntry * option error) * world :=
  match dirs w !! dir with
  | Some entries => ((entries, None), w)
  | None =>
    (([], Some (errorString ("open " ++ dir ++ ": no such file or directory"))),
     w)
  end.

Definition Store
  (idx : redisIndexer.IndexerConfig unit embeddingArk.EmbeddingConfig)
  (docs : list schema.Document) (w : world)
  : (list string * option error) * world :=
  let recs := map (fun d => fst (redisIndexer.DocumentToHashes idx d)) docs in
  let (err, st) := write recs (store w) in
  match err with
  | Some e => (([], Some e), with_store w st)
  | None => ((map schema.ID docs, None), with_store w st)
  end.

#[export] Instance rag_external : rag.External := {|
  rag.World := world;
  rag.Embedder := embeddingArk.EmbeddingConfig;
  rag.Indexer := redisIndexer.IndexerConfig unit embeddingArk.EmbeddingConfig;
  rag.Retriever :=
    redisRetriever.RetrieverConfig unit embeddingArk.EmbeddingConfig;
  rag.RedisClient := unit;
  rag.os_Getenv := fun key w => default "" (env w !! key);
  rag.os_ReadFile := ReadFile;
  rag.os_ReadDir := ReadDir;
  rag.config_GetConfig := conf;
  rag.embeddingArk_NewEmbedder := fun cfg w => ((cfg, None), w);
  rag.redisPkg_Rdb := fun _ => tt;
  rag.redisPkg_InitRedisIndex := fun filename dimension w =>
    let (err, st) := create_index filename dimension (store w) in
    (err, with_store w st);
  rag.redisPkg_DeleteRedisIndex := fun filename w =>
    let (err, st) := delete_index filename (store w) in
    (err, with_store w st);
  rag.redis_GenerateIndexNamePrefix := fun filename =>
    "rag_docs:" ++ filename ++ ":";
  rag.redis_GenerateIndexName := fun filename =>
    "rag_docs:" ++ filename ++ ":idx";
  rag.redisIndexer_NewIndexer := fun cfg w => ((cfg, None), w);
  rag.Indexer_Store := Store;
  rag.redisRetriever_NewRetriever := fun cfg w => ((cfg, None), w);
  rag.Retriever_Retrieve := fun _ _ w => (([], None), w)
|}.

(** A world with one uploaded file for user [alice] and an empty store. *)
Definition w0 : world := {|
  env := {[ "OPENAI_API_KEY" := "sk-test" ]};
  conf := {| config.RagModelConfig_ :=
               {| config.RagDimension := 1024;
                  config.RagBaseUrl := "https://ark.example/api/v3";
                  config.RagEmbeddingModel := "embedding-v1" |} |};
  files := {[ "uploads/alice/notes.txt" := "Go is a compiled language." ]};
  dirs := {[ "uploads/alice" :=
               [ {| os.Name := "tmp"; os.IsDir := true |};
                 {| os.Name := "notes.txt"; os.IsDir := false |} ] ]};
  store := {| reachable := true; bases := ∅; records := ∅ |}
|}.

(** The indexer handle that [NewRAGIndexer "notes.txt" "embedding-v1"]
    builds in this world. *)
Definition indexer0 : rag.RAGIndexer :=
  let embedder :=
    {| embeddingArk.BaseURL := "https://ark.example/api/v3";
       embeddingArk.APIKey := "sk-test";
       embeddingArk.Model := "embedding-v1" |} in
  {| rag.embedding := embedder;
     rag.indexer :=
       {| redisIndexer.Client := tt;
          redisIndexer.KeyPrefix := "rag_docs:notes.txt:";
          redisIndexer.BatchSize := 10;
          redisIndexer.DocumentToHashes := rag.DocumentToHashes "notes.txt";
          redisIndexer.Embedding := embedder |} |}.

(** The same world with the store cut off. *)
Definition w_down : world :=
  with_store w0 {| reachable := false; bases := ∅; records := ∅ |}.

(** The relational store: a table of users and a flag for the connection. *)
Record db := {
  up : bool;
  users : list model.User
}.

Definition ErrConnection : error := errorString "dial tcp: connection refused".

Definition find_user (p : model.User -> bool) (d : db)
  : (option model.User * option error) * db :=
  if negb (up d) then ((None, Some ErrConnection), d)
  else
    match List.find p (users d) with
    | Some u => ((Some u, None), d)
    | None => ((None, Some ErrRecordNotFound), d)
    end.

Definition insert_user (u : model.User) (d : db)
  : (option model.User * option error) * db :=
  if negb (up d) then ((None, Some ErrConnection), d)
  else ((Some u, None), {| up := up d; users := users d ++ [u] |}).

(** A stand-in for [utils.MD5], whose source is not at hand: any function
    on strings serves the instance.  This one is a checksum, the sum of the
    bytes in decimal; like a hash it maps many strings to one. *)
Definition digest (s : string) : string :=
  fmt_d (Z.of_nat (foldr (fun a n => nat_of_ascii a + n)%nat 0%nat
                     (list_ascii_of_string s))).

#[export] Instance user_external : user.External := {|
  user.DB := db;
  user.mysql_GetUserByUsername := fun username =>
    find_user (fun u => String.eqb (model.Username u) username);
  user.mysql_GetUserByEmail := fun email =>
    find_user (fun u => String.eqb (model.Email u) email);
  user.mysql_InsertUser := insert_user;
  user.utils_MD5 := digest
|}.

Definition bob : model.User := {|
  model.Email := "bob@example.com";
  model.Name := "bob";
  model.Username := "bob";
  model.Password := digest "secret"
|}.

Definition db0 : db := {| up := true; users := [bob] |}.
Definition db_down : db := {| up := false; users := [bob] |}.
End sim.

(** ** Vocabulary of the statements *)

(** The last byte of [s], or [d] when [s] is empty. *)
Fixpoint last_byte (s : string) (d : ascii) : ascii :=
  match s with
  | EmptyString => d
  | String a s' => last_byte s' a
  end.

(** The text that one document contributes to the prompt when it stands at
    index [i] of the slice: its label, numbered from 1, and its content. *)
Definition entry (i : nat) (doc : schema.Document) : string :=
  "[文档 " ++ fmt_d (Z.of_nat i + 1) ++ "]: " ++ schema.Content doc ++ LF ++ LF.

(** What the converter has built after folding over the fields [m] of the
    hit [hit]. *)
Definition converted (hit : redisCli.Document) (m : gmap string string)
    (d : schema.Document) : Prop :=
  schema.ID d = redisCli.ID hit /\
  schema.Content d = default "" (m !! "content") /\
  schema.MetaData d = AnyString <$> delete "content" m.

(** The error, if any, that an outside call of [rag] answered. *)
Definition call_error `{rag.External} (ev : rag.event) : option error :=
  match ev with
  | rag.EvNewEmbedder _ out => snd out
  | rag.EvInitRedisIndex _ _ out => out
  | rag.EvNewIndexer _ out => snd out
  | rag.EvReadFile _ out => snd out
  | rag.EvStore _ _ out => snd out
  | rag.EvDeleteRedisIndex _ out => out
  | rag.EvReadDir _ out => snd out
  | rag.EvNewRetriever _ out => snd out
  | rag.EvRetrieve _ _ out => snd out
  end.

(** The source label that the Document Mapper reads from a document: the
    string under ["source"], or the empty string. *)
Definition source_label (doc : schema.Document) : string :=
  fst (assert_string (schema.MetaData doc !! "source")).

(** ** Further worlds *)

Module worlds.

(** A world in which the upload directory of [alice] holds only
    directories, and that of [carol] holds nothing. *)
Definition w_dirs : sim.world := {|
  sim.env := sim.env sim.w0;
  sim.conf := sim.conf sim.w0;
  sim.files := ∅;
  sim.dirs := {[ "uploads/alice" :=
                   [ {| os.Name := "tmp"; os.IsDir := true |};
                     {| os.Name := "old"; os.IsDir := true |} ];
                 "uploads/carol" := [] ]};
  sim.store := sim.store sim.w0
|}.
End worlds.

(** * Properties *)

(** ** Proof tools *)

(** Expose the state transformer behind a monadic definition. *)
Ltac eff_unfold :=
  unfold run, mbind, M_bind, bind, call, ask, mret, M_ret, ret in *;
  cbn [world trace] in *.

(** Split a membership in an explicit list into its cases. *)
Ltac trace_cases H :=
  repeat match type of H with
         | _ ∈ _ :: _ => apply elem_of_cons in H as [H|H]
         | _ ∈ [] => apply elem_of_nil in H; contradiction
         end.

(** Decide the guards of the [if]s in the goal, one after the other. *)
Ltac guards :=
  cbn [andb world trace app fst snd];
  repeat (case_bool_decide; cbn [andb world trace app fst snd]);
  simplify_eq.

(** ** Strings *)

Lemma append_assoc (a b c : string) : (a ++ b) ++ c = a ++ (b ++ c).
Proof.
  induction a as [|x a IH]; [reflexivity|].
  change (String x ((a ++ b) ++ c) = String x (a ++ (b ++ c))).
  now rewrite IH.
Qed.

Lemma append_empty_r (a : string) : a ++ "" = a.
Proof.
  induction a as [|x a IH]; [reflexivity|].
  change (String x (a ++ "") = String x a).
  now rewrite IH.
Qed.

Lemma last_byte_append (pre : string) (b : ascii) (q : string) (d : ascii) :
  last_byte (pre ++ String b q) d = last_byte q b.
Proof.
  revert d. induction pre as [|x pre IH]; intros d.
  - reflexivity.
  - change (last_byte (pre ++ String b q) x = last_byte q b). apply IH.
Qed.

(** ** The Document Mapper *)

Section DocumentMapper.
Import redisIndexer.

(** C1.  A document whose metadata holds the string [S] under ["source"] is
    mapped, without error, to a record with key [filename:ID], a ["content"]
    field holding the document's content with embed target ["vector"], a
    ["metadata"] field holding [S] as plain text, and no other field. *)
Theorem DocumentToHashes_record (filename : string) (doc : schema.Document)
    (S : string) :
  schema.MetaData doc !! "source" = Some (AnyString S) ->
  exists h : Hashes,
    rag.DocumentToHashes filename doc = (h, None) /\
    Key h = filename ++ ":" ++ schema.ID doc /\
    Field2Value h !! "content"
      = Some {| Value := schema.Content doc; EmbedKey := "vector" |} /\
    Field2Value h !! "metadata" = Some {| Value := S; EmbedKey := "" |} /\
    dom (Field2Value h) = {[ "content"; "metadata" ]}.
Proof.
  intros Hsrc. unfold rag.DocumentToHashes. rewrite Hsrc. simpl.
  eexists. split; [reflexivity|]. simpl.
  split; [reflexivity|]. split; [|split].
  - now rewrite lookup_insert_eq.
  - rewrite lookup_insert_ne by discriminate. now rewrite lookup_insert_eq.
  - rewrite !dom_insert_L, dom_empty_L. set_solver.
Qed.

Lemma DocumentToHashes_record_witness :
  exists h : Hashes,
    rag.DocumentToHashes "notes.txt"
      {| schema.ID := "doc_1"; schema.Content := "Go is a compiled language.";
         schema.MetaData := {[ "source" := AnyString "uploads/notes.txt" ]} |}
    = (h, None) /\
    Key h = "notes.txt:doc_1" /\
    Field2Value h !! "metadata"
      = Some {| Value := "uploads/notes.txt"; EmbedKey := "" |}.
Proof.
  destruct (DocumentToHashes_record "notes.txt"
              {| schema.ID := "doc_1";
                 schema.Content := "Go is a compiled language.";
                 schema.MetaData :=
                   {[ "source" := AnyString "uploads/notes.txt" ]} |}
              "uploads/notes.txt")
    as (h & E & Hk & _ & Hm & _).
  - vm_compute. reflexivity.
  - exists h. split; [exact E|]. split; [exact Hk | exact Hm].
Defined.

(** C10.  The mapper returns a record and a [nil] error for every document;
    when the metadata has no ["source"] entry, or one whose value is not a
    string, the ["metadata"] field holds the empty string. *)
Theorem DocumentToHashes_total (filename : string) (doc : schema.Document) :
  exists h : Hashes,
    rag.DocumentToHashes filename doc = (h, None) /\
    Key h = filename ++ ":" ++ schema.ID doc /\
    ((forall s : string, schema.MetaData doc !! "source" <> Some (AnyString s)) ->
     Field2Value h !! "metadata" = Some {| Value := ""; EmbedKey := "" |}).
Proof.
  unfold rag.DocumentToHashes.
  eexists. split; [reflexivity|]. split; [reflexivity|].
  intros Hno. simpl.
  rewrite lookup_insert_ne by discriminate. rewrite lookup_insert_eq.
  destruct (schema.MetaData doc !! "source") as [[| s | z | b]|] eqn:E;
    simpl; try reflexivity.
  exfalso. exact (Hno s eq_refl).
Qed.

Lemma DocumentToHashes_total_witness :
  exists h : Hashes,
    rag.DocumentToHashes "notes.txt"
      {| schema.ID := "doc_7"; schema.Content := "text";
         schema.MetaData := {[ "source" := AnyInt 42 ]} |}
    = (h, None) /\
    Field2Value h !! "metadata" = Some {| Value := ""; EmbedKey := "" |}.
Proof.
  destruct (DocumentToHashes_total "notes.txt"
              {| schema.ID := "doc_7"; schema.Content := "text";
                 schema.MetaData := {[ "source" := AnyInt 42 ]} |})
    as (h & E & _ & Hm).
  exists h. split; [exact E|]. apply Hm.
  intros s. vm_compute. discriminate.
Defined.
End DocumentMapper.

(** ** The Prompt Builder *)

Section PromptBuilder.

Lemma contextText_loop_entries (docs : list schema.Document) :
  forall (k : nat) (acc : string),
    rag.contextText_loop (Z.of_nat k) docs acc
    = acc ++ String.concat "" (imap (fun i => entry (k + i)) docs).
Proof.
  induction docs as [|doc docs IH]; intros k acc.
  - simpl. now rewrite append_empty_r.
  - cbn [rag.contextText_loop].
    replace (Z.of_nat k + 1)%Z with (Z.of_nat (S k)) by lia.
    rewrite IH, imap_cons, append_assoc. f_equal.
    replace (k + 0)%nat with k by lia.
    assert (Hshift : imap ((fun i => entry (k + i)) ∘ S) docs
                     = imap (fun i => entry (S k + i)) docs).
    { apply imap_ext. intros i x _. simpl. f_equal. lia. }
    rewrite Hshift.
    unfold entry at 2.
    replace (Z.of_nat k + 1)%Z with (Z.of_nat (S k)) by lia.
    destruct docs as [|doc' docs'].
    + simpl. now rewrite append_empty_r.
    + reflexivity.
Qed.

(** C3.  With no documents the prompt is the query itself. *)
Theorem BuildRAGPrompt_nil (query : string) :
  rag.BuildRAGPrompt query [] = query.
Proof. reflexivity. Qed.

(** C2, as the code has it.  For a non-empty list of documents the prompt is
    the fixed heading, then one entry per document in input order, the entry
    of the document at position [i] (counted from 0) being labelled with the
    number [i + 1], then the query introduced by its label, then the fixed
    closing instruction.  The query is followed by that instruction, which
    is what the prompt ends with. *)
Theorem BuildRAGPrompt_layout (query : string) (docs : list schema.Document) :
  docs <> [] ->
  let entries := imap entry docs in
  rag.BuildRAGPrompt query docs
  = "基于以下参考文档回答用户的问题。如果文档中没有相关信息，请说明无法找到相关信息。"
    ++ LF ++ LF ++ "参考文档：" ++ LF
    ++ String.concat "" entries
    ++ LF ++ LF ++ "用户问题：" ++ query
    ++ LF ++ LF ++ "请提供准确、完整的回答：" /\
  length entries = length docs /\
  (forall (i : nat) (doc : schema.Document),
     docs !! i = Some doc ->
     entries !! i
     = Some ("[文档 " ++ fmt_d (Z.of_nat i + 1) ++ "]: "
             ++ schema.Content doc ++ LF ++ LF)).
Proof.
  intros Hne entries. split; [|split].
  - unfold rag.BuildRAGPrompt.
    destruct docs as [|doc docs]; [contradiction|].
    replace (Z.of_nat (length (doc :: docs)) =? 0)%Z with false
      by (symmetry; apply Z.eqb_neq; simpl length; lia).
    cbv zeta.
    change (rag.contextText_loop 0 (doc :: docs) "")
      with (rag.contextText_loop (Z.of_nat 0) (doc :: docs) "").
    rewrite (contextText_loop_entries (doc :: docs) 0 "").
    reflexivity.
  - apply length_imap.
  - intros i doc Hi. unfold entries. rewrite list_lookup_imap, Hi.
    reflexivity.
Qed.

Lemma BuildRAGPrompt_layout_witness :
  rag.BuildRAGPrompt "What is Go?"
    [ {| schema.ID := "a"; schema.Content := "Go is a language.";
         schema.MetaData := ∅ |};
      {| schema.ID := "b"; schema.Content := "Go has goroutines.";
         schema.MetaData := ∅ |} ]
  = "基于以下参考文档回答用户的问题。如果文档中没有相关信息，请说明无法找到相关信息。"
    ++ LF ++ LF ++ "参考文档：" ++ LF
    ++ "[文档 1]: Go is a language." ++ LF ++ LF
    ++ "[文档 2]: Go has goroutines." ++ LF ++ LF
    ++ LF ++ LF ++ "用户问题：What is Go?"
    ++ LF ++ LF ++ "请提供准确、完整的回答：".
Proof.
  destruct (BuildRAGPrompt_layout "What is Go?"
              [ {| schema.ID := "a"; schema.Content := "Go is a language.";
                   schema.MetaData := ∅ |};
                {| schema.ID := "b"; schema.Content := "Go has goroutines.";
                   schema.MetaData := ∅ |} ]) as (E & _ & _).
  - discriminate.
  - rewrite E. vm_compute. reflexivity.
Defined.

(** C2, as the spec words it, fails on its last part: the prompt does not
    end with the query. *)
Lemma BuildRAGPrompt_query_not_last :
  ~ exists pre : string,
      rag.BuildRAGPrompt "What is Go?"
        [ {| schema.ID := "a"; schema.Content := "Go is a language.";
             schema.MetaData := ∅ |} ]
      = pre ++ "What is Go?".
Proof.
  intros [pre E].
  apply (f_equal (fun s => last_byte s "000"%char)) in E.
  rewrite last_byte_append in E.
  vm_compute in E. discriminate E.
Qed.
End PromptBuilder.

(** ** The Indexing Pipeline *)

Section IndexingPipeline.
Context `{rag.External}.
Import rag.

(** The handle that [NewRAGIndexer] returns comes from one [NewIndexer]
    call whose configuration carries the Document Mapper for [filename]. *)
Lemma NewRAGIndexer_mapper (filename embeddingModel : string) (w : World)
    (r : RAGIndexer) (s : state World event) :
  run (NewRAGIndexer filename embeddingModel) w = ((Some r, None), s) ->
  exists cfg,
    last (trace s) = Some (EvNewIndexer cfg (indexer r, None)) /\
    redisIndexer.DocumentToHashes cfg = DocumentToHashes filename /\
    redisIndexer.BatchSize cfg = 10%Z.
Proof.
  unfold NewRAGIndexer. eff_unfold. intros Hrun.
  repeat case_match; simplify_eq.
  eexists. split; [apply last_snoc|]. split; reflexivity.
Qed.

(** C4.  When the file can be read, [IndexFile] makes exactly two outside
    calls: the read, and one [Store] whose argument is a slice of exactly
    one document, with the fixed ID ["doc_1"], the whole file content as
    content and the file path under ["source"], whatever the length of the
    content.  The result is [nil] when the store accepts the document and
    the wrapped store error otherwise. *)
Theorem IndexFile_single_document (r : RAGIndexer) (filePath content : string)
    (w w1 : World) :
  os_ReadFile filePath w = ((content, None), w1) ->
  let doc :=
    {| schema.ID := "doc_1";
       schema.Content := content;
       schema.MetaData := {[ "source" := AnyString filePath ]} |} in
  let out := Indexer_Store (indexer r) [doc] w1 in
  run (IndexFile r filePath) w
  = (match snd (fst out) with
     | Some err => Some (Errorf_w "failed to store document: " err)
     | None => None
     end,
     State (snd out)
       [ EvReadFile filePath (content, None);
         EvStore (indexer r) [doc] (fst out) ]).
Proof.
  intros Hread doc out. unfold IndexFile. eff_unfold.
  rewrite Hread. cbn [world trace]. subst out. fold doc.
  destruct (Indexer_Store (indexer r) [doc] w1) as [[ids [err|]] w2];
    reflexivity.
Qed.
End IndexingPipeline.

Lemma IndexFile_single_document_witness :
  let doc :=
    {| schema.ID := "doc_1";
       schema.Content := "Go is a compiled language.";
       schema.MetaData :=
         {[ "source" := AnyString "uploads/alice/notes.txt" ]} |} in
  exists w' : sim.world,
    run (@rag.IndexFile sim.rag_external sim.indexer0
           "uploads/alice/notes.txt") sim.w0
    = (None,
       State w'
         [ @rag.EvReadFile sim.rag_external "uploads/alice/notes.txt"
             ("Go is a compiled language.", None);
           @rag.EvStore sim.rag_external (rag.indexer sim.indexer0) [doc]
             (["doc_1"], None) ]).
Proof.
  intros doc. eexists.
  rewrite (@IndexFile_single_document sim.rag_external sim.indexer0
             "uploads/alice/notes.txt" "Go is a compiled language."
             sim.w0 sim.w0 eq_refl).
  reflexivity.
Defined.

(** ** The Retrieval Pipeline *)

Lemma DocumentConverter_spec (hit : redisCli.Document) :
  exists d : schema.Document,
    rag.DocumentConverter hit = (d, None) /\
    converted hit (redisCli.Fields hit) d.
Proof.
  unfold rag.DocumentConverter. eexists. split; [reflexivity|].
  apply (map_fold_weak_ind (fun d m => converted hit m d)).
  - unfold converted. simpl. split; [reflexivity|]. split; [reflexivity|].
    now rewrite delete_empty, fmap_empty.
  - intros field val m d Hfresh (Hid & Hcontent & Hmeta).
    unfold converted.
    destruct (String.eqb_spec field "content") as [->|Hne]; simpl.
    + split; [exact Hid|]. split.
      * now rewrite lookup_insert_eq.
      * rewrite Hmeta, delete_insert_eq. reflexivity.
    + split; [exact Hid|]. split.
      * rewrite lookup_insert_ne by exact Hne. exact Hcontent.
      * rewrite Hmeta, delete_insert_ne by congruence.
        now rewrite fmap_insert.
Qed.

Section RetrievalPipeline.
Context `{rag.External}.
Import rag.

(** C6.  A [RAGQuery] returned by [NewRAGQuery] holds the retriever answered
    by a [NewRetriever] call, the last outside call of the run, whose
    configuration has [TopK = 5], [VectorField = "vector"] and a converter
    that, for every hit and without error, keeps the hit's ID, takes the
    value of the field ["content"] as the content (the empty string when the
    hit has no such field) and turns every other field of the hit, and
    nothing else, into a metadata entry holding that field's value. *)
Theorem NewRAGQuery_retriever (username : string) (w : World) (q : RAGQuery)
    (s : state World event) :
  run (NewRAGQuery username) w = ((Some q, None), s) ->
  exists cfg,
    last (trace s) = Some (EvNewRetriever cfg (retriever q, None)) /\
    redisRetriever.TopK cfg = 5%Z /\
    redisRetriever.VectorField cfg = "vector" /\
    forall hit : redisCli.Document,
      exists d : schema.Document,
        redisRetriever.DocumentConverter cfg hit = (d, None) /\
        schema.ID d = redisCli.ID hit /\
        schema.Content d = default "" (redisCli.Fields hit !! "content") /\
        schema.MetaData d
        = AnyString <$> delete "content" (redisCli.Fields hit).
Proof.
  unfold NewRAGQuery. eff_unfold. intros Hrun.
  repeat case_match; simplify_eq.
  eexists. split; [apply last_snoc|].
  split; [reflexivity|]. split; [reflexivity|].
  intros hit. cbn [redisRetriever.DocumentConverter].
  destruct (DocumentConverter_spec hit) as (d & E & Hd).
  exists d. split; [exact E | exact Hd].
Qed.
End RetrievalPipeline.

Lemma NewRAGQuery_retriever_witness :
  exists q s cfg,
    run (@rag.NewRAGQuery sim.rag_external "alice") sim.w0 = ((Some q, None), s) /\
    last (trace s)
    = Some (@rag.EvNewRetriever sim.rag_external cfg (rag.retriever q, None)) /\
    redisRetriever.TopK cfg = 5%Z /\
    redisRetriever.VectorField cfg = "vector" /\
    exists d : schema.Document,
      redisRetriever.DocumentConverter cfg
        {| redisCli.ID := "notes.txt:doc_1";
           redisCli.Fields :=
             {[ "content" := "Go is a compiled language.";
                "metadata" := "uploads/alice/notes.txt";
                "distance" := "0.12" ]} |}
      = (d, None) /\
      schema.Content d = "Go is a compiled language." /\
      schema.MetaData d
      = {[ "metadata" := AnyString "uploads/alice/notes.txt";
           "distance" := AnyString "0.12" ]}.
Proof.
  assert (Hrun : exists q s,
             run (@rag.NewRAGQuery sim.rag_external "alice") sim.w0
             = ((Some q, None), s))
    by (eexists _, _; vm_compute; reflexivity).
  destruct Hrun as (q & s & Hrun).
  destruct (@NewRAGQuery_retriever sim.rag_external "alice" sim.w0 q s Hrun)
    as (cfg & Hlast & Hk & Hv & Hconv).
  exists q, s, cfg.
  split; [exact Hrun|]. split; [exact Hlast|].
  split; [exact Hk|]. split; [exact Hv|].
  destruct (Hconv {| redisCli.ID := "notes.txt:doc_1";
                     redisCli.Fields :=
                       {[ "content" := "Go is a compiled language.";
                          "metadata" := "uploads/alice/notes.txt";
                          "distance" := "0.12" ]} |})
    as (d & E & _ & Hc & Hm).
  exists d. split; [exact E|]. split.
  - rewrite Hc. vm_compute. reflexivity.
  - rewrite Hm. vm_compute. reflexivity.
Defined.

(** ** Deleting a knowledge base *)

Section DeleteIndex.
Context `{rag.External}.
Import rag.

(** X22.  [DeleteIndex] makes one outside call, the store's delete, with
    the file name as it was given.  It returns [nil] exactly when that call
    does; otherwise it returns the store's error, whatever it is, wrapped
    under the message of the stage: the text is prefixed, the store's error
    is what [Unwrap] yields, and whatever [errors.Is] finds in the store's
    error it finds in the result.  Nothing in it looks at whether the
    knowledge base exists. *)
Theorem DeleteIndex_propagates (filename : string) (w : World) :
  let out := redisPkg_DeleteRedisIndex filename w in
  exists res : option error,
    run (DeleteIndex filename) w
    = (res, State (snd out) [EvDeleteRedisIndex filename (fst out)]) /\
    match fst out with
    | None => res = None
    | Some e =>
      exists r : error,
        res = Some r /\
        Error r = "failed to delete redis index: " ++ Error e /\
        Unwrap r = Some e /\
        forall target : error,
          errors_Is e target = true -> errors_Is r target = true
    end.
Proof.
  intros out. subst out. unfold DeleteIndex. eff_unfold.
  destruct (redisPkg_DeleteRedisIndex filename w) as [[e|] w1]; simpl.
  - eexists. split; [reflexivity|].
    eexists. split; [reflexivity|]. split; [reflexivity|].
    split; [reflexivity|].
    intros target Histarget. unfold Errorf_w. cbn [errors_Is].
    rewrite Histarget. apply orb_true_r.
  - eexists. split; reflexivity.
Qed.
End DeleteIndex.

(** ** The user DAO *)

Section UserDAO.
Context `{user.External}.
Import user.

(** C5.  When the username query and then the email query both answer
    record-not-found, [IsExistUser] returns [(false, nil)]: a plain boolean,
    its result type has no error.  When a query that it makes answers with a
    user and no error, it returns [true] with that user. *)
Theorem IsExistUser_found_or_not (username : string) (db : DB) :
  (forall (u1 u2 : option model.User) (db1 db2 : DB),
     mysql_GetUserByUsername username db
     = ((u1, Some ErrRecordNotFound), db1) ->
     mysql_GetUserByEmail username db1
     = ((u2, Some ErrRecordNotFound), db2) ->
     run (IsExistUser username) db
     = ((false, None),
        State db2
          [ EvGetUserByUsername username (u1, Some ErrRecordNotFound);
            EvGetUserByEmail username (u2, Some ErrRecordNotFound) ])) /\
  (forall (ev : event) (u : model.User),
     ev ∈ trace (snd (run (IsExistUser username) db)) ->
     answer ev = (Some u, None) ->
     fst (run (IsExistUser username) db) = (true, Some u)).
Proof.
  split.
  - intros u1 u2 db1 db2 Hname Hmail.
    unfold IsExistUser. eff_unfold. rewrite Hname. guards.
    rewrite Hmail. guards. reflexivity.
  - unfold IsExistUser. eff_unfold. intros ev u.
    destruct (mysql_GetUserByUsername username db) as [[u1 e1] db1].
    guards;
      try (intros Hin Hans; trace_cases Hin; subst ev; cbn in Hans;
           congruence).
    all: destruct (mysql_GetUserByEmail username db1) as [[u2 e2] db2].
    all: guards; intros Hin Hans; trace_cases Hin; subst ev; cbn in Hans;
      congruence.
Qed.

(** C9.  When a query that [IsExistUser] makes, by username or by email,
    answers with an error other than record-not-found, the result is
    [(false, nil)], as for a user that does not exist; the error goes
    nowhere. *)
Theorem IsExistUser_swallows_errors (username : string) (db : DB)
    (ev : event) (e : error) :
  ev ∈ trace (snd (run (IsExistUser username) db)) ->
  snd (answer ev) = Some e ->
  e <> ErrRecordNotFound ->
  fst (run (IsExistUser username) db) = (false, None).
Proof.
  unfold IsExistUser. eff_unfold.
  destruct (mysql_GetUserByUsername username db) as [[u1 e1] db1].
  guards;
    try (intros Hin Hans Hne; trace_cases Hin; subst ev; cbn in Hans;
         congruence).
  all: destruct (mysql_GetUserByEmail username db1) as [[u2 e2] db2].
  all: guards; intros Hin Hans Hne; trace_cases Hin; subst ev; cbn in Hans;
    congruence.
Qed.

(** C8.  [Register] makes one outside call, the insert of a user whose
    [Name] and [Username] are the given username, whose [Email] is the given
    email and whose [Password] is [utils.MD5] of the given password.  It
    returns [(nil, false)] when the insert answers with an error and the
    inserted user with [true] otherwise.  The password itself is used nowhere
    else: two passwords with the same digest give the same run. *)
Theorem Register_inserts_digest (username email password : string) (db : DB) :
  (exists (arg : model.User) (out : option model.User * option error)
          (db' : DB),
     mysql_InsertUser arg db = (out, db') /\
     model.Password arg = utils_MD5 password /\
     model.Name arg = username /\
     model.Username arg = username /\
     model.Email arg = email /\
     run (Register username email password) db
     = (match snd out with
        | Some _ => (None, false)
        | None => (fst out, true)
        end,
        State db' [EvInsertUser arg out])) /\
  (forall password' : string,
     utils_MD5 password' = utils_MD5 password ->
     run (Register username email password') db
     = run (Register username email password) db).
Proof.
  split.
  - unfold Register. eff_unfold.
    set (arg := {| model.Email := email; model.Name := username;
                   model.Username := username;
                   model.Password := utils_MD5 password |}).
    destruct (mysql_InsertUser arg db) as [[user err] db'] eqn:Hins.
    exists arg, (user, err), db'.
    split; [exact Hins|]. do 4 (split; [reflexivity|]).
    destruct err; reflexivity.
  - intros password' Hsame. unfold Register. now rewrite Hsame.
Qed.
End UserDAO.

Lemma IsExistUser_found_or_not_witness :
  fst (run (@user.IsExistUser sim.user_external "carol") sim.db0)
  = (false, None) /\
  fst (run (@user.IsExistUser sim.user_external "bob@example.com") sim.db0)
  = (true, Some sim.bob).
Proof.
  split.
  - destruct (@IsExistUser_found_or_not sim.user_external "carol" sim.db0)
      as [Hnone _].
    rewrite (Hnone None None sim.db0 sim.db0 eq_refl eq_refl). reflexivity.
  - destruct (@IsExistUser_found_or_not sim.user_external "bob@example.com"
                sim.db0) as [_ Hsome].
    apply (Hsome (user.EvGetUserByEmail "bob@example.com"
                    (Some sim.bob, None))).
    + vm_compute. apply elem_of_cons. right. apply elem_of_cons. now left.
    + reflexivity.
Defined.

Lemma IsExistUser_swallows_errors_witness :
  fst (run (@user.IsExistUser sim.user_external "bob") sim.db_down)
  = (false, None).
Proof.
  apply (@IsExistUser_swallows_errors sim.user_external "bob" sim.db_down
           (user.EvGetUserByUsername "bob" (None, Some sim.ErrConnection))
           sim.ErrConnection).
  - vm_compute. apply elem_of_cons. now left.
  - reflexivity.
  - discriminate.
Defined.

Lemma Register_inserts_digest_witness :
  run (@user.Register sim.user_external "carol" "carol@example.com" "terces")
    sim.db0
  = ((Some {| model.Email := "carol@example.com";
              model.Name := "carol";
              model.Username := "carol";
              model.Password := sim.digest "secret" |},
      true),
     State {| sim.up := true;
              sim.users :=
                [ sim.bob;
                  {| model.Email := "carol@example.com";
                     model.Name := "carol";
                     model.Username := "carol";
                     model.Password := sim.digest "secret" |} ] |}
       [ @user.EvInsertUser
           {| model.Email := "carol@example.com";
              model.Name := "carol";
              model.Username := "carol";
              model.Password := sim.digest "secret" |}
           (Some {| model.Email := "carol@example.com";
                    model.Name := "carol";
                    model.Username := "carol";
                    model.Password := sim.digest "secret" |}, None) ]).
Proof.
  destruct (@Register_inserts_digest sim.user_external
              "carol" "carol@example.com" "secret" sim.db0) as [_ Hsame].
  rewrite (Hsame "terces" eq_refl).
  reflexivity.
Defined.

(** * Further properties *)

(** ** Strings, continued *)

Lemma length_append (a b : string) :
  String.length (a ++ b) = (String.length a + String.length b)%nat.
Proof.
  induction a as [|x a IH]; [reflexivity|].
  change (S (String.length (a ++ b)) = S (String.length a + String.length b)).
  now rewrite IH.
Qed.

Lemma append_inj_l (a b c : string) : a ++ b = a ++ c -> b = c.
Proof.
  induction a as [|x a IH]; intros E; [exact E|].
  apply IH. now injection E.
Qed.

(** ** The Document Mapper, continued *)

Section DocumentMapperMore.
Import redisIndexer.

(** X1.  Within one knowledge base, documents with different IDs are mapped
    to different keys. *)
Theorem DocumentToHashes_key_injective (filename : string)
    (doc1 doc2 : schema.Document) :
  schema.ID doc1 <> schema.ID doc2 ->
  Key (fst (rag.DocumentToHashes filename doc1))
  <> Key (fst (rag.DocumentToHashes filename doc2)).
Proof.
  intros Hne E. apply Hne. cbn in E.
  apply append_inj_l in E. now apply append_inj_l in E.
Qed.

Lemma DocumentToHashes_key_injective_witness :
  Key (fst (rag.DocumentToHashes "notes.txt"
              {| schema.ID := "doc_1"; schema.Content := "a";
                 schema.MetaData := ∅ |}))
  <> Key (fst (rag.DocumentToHashes "notes.txt"
                 {| schema.ID := "doc_2"; schema.Content := "a";
                    schema.MetaData := ∅ |})).
Proof.
  apply (DocumentToHashes_key_injective "notes.txt"
           {| schema.ID := "doc_1"; schema.Content := "a";
              schema.MetaData := ∅ |}
           {| schema.ID := "doc_2"; schema.Content := "a";
              schema.MetaData := ∅ |}).
  discriminate.
Defined.

(** X2.  Across knowledge bases the key is ambiguous: the separator is not
    escaped, so the document [x:id] of the base [f] and the document [id] of
    the base [f:x] get the same key. *)
Theorem DocumentToHashes_key_ambiguous (f x id content1 content2 : string)
    (m1 m2 : gmap string any) :
  Key (fst (rag.DocumentToHashes f
              {| schema.ID := x ++ ":" ++ id; schema.Content := content1;
                 schema.MetaData := m1 |}))
  = Key (fst (rag.DocumentToHashes (f ++ ":" ++ x)
                {| schema.ID := id; schema.Content := content2;
                   schema.MetaData := m2 |})).
Proof.
  cbn. rewrite !append_assoc. reflexivity.
Qed.

(** X3.  The record depends on the document only through its ID, its
    content and what its metadata holds under ["source"]: every other
    metadata entry is left out of the record. *)
Theorem DocumentToHashes_only_source (filename : string)
    (doc1 doc2 : schema.Document) :
  schema.ID doc1 = schema.ID doc2 ->
  schema.Content doc1 = schema.Content doc2 ->
  schema.MetaData doc1 !! "source" = schema.MetaData doc2 !! "source" ->
  rag.DocumentToHashes filename doc1 = rag.DocumentToHashes filename doc2.
Proof.
  intros Hid Hcontent Hsource. unfold rag.DocumentToHashes.
  now rewrite Hid, Hcontent, Hsource.
Qed.

Lemma DocumentToHashes_only_source_witness :
  rag.DocumentToHashes "notes.txt"
    {| schema.ID := "doc_1"; schema.Content := "text";
       schema.MetaData := {[ "source" := AnyString "a.txt";
                             "author" := AnyString "bob";
                             "page" := AnyInt 3 ]} |}
  = rag.DocumentToHashes "notes.txt"
      {| schema.ID := "doc_1"; schema.Content := "text";
         schema.MetaData := {[ "source" := AnyString "a.txt" ]} |}.
Proof.
  apply DocumentToHashes_only_source; vm_compute; reflexivity.
Defined.
End DocumentMapperMore.

(** ** The converter, continued *)

Section ConverterMore.
Import redisIndexer.

(** X4.  Every metadata entry of a converted document is a string, the
    value of the hit's field of the same name, and no entry is named
    ["content"]. *)
Theorem DocumentConverter_metadata_strings (hit : redisCli.Document)
    (k : string) (v : any) :
  schema.MetaData (fst (rag.DocumentConverter hit)) !! k = Some v ->
  k <> "content" /\
  exists s : string, redisCli.Fields hit !! k = Some s /\ v = AnyString s.
Proof.
  destruct (DocumentConverter_spec hit) as (d & E & _ & _ & Hmeta).
  rewrite E. cbn [fst]. rewrite Hmeta, lookup_fmap.
  destruct (decide (k = "content")) as [->|Hne].
  - rewrite lookup_delete_eq. discriminate.
  - rewrite lookup_delete_ne by congruence.
    destruct (redisCli.Fields hit !! k) as [s|]; [|discriminate].
    intros [= <-]. split; [exact Hne|]. now exists s.
Qed.

Lemma DocumentConverter_metadata_strings_witness :
  "distance" <> "content" /\
  exists s : string,
    redisCli.Fields
      {| redisCli.ID := "notes.txt:doc_1";
         redisCli.Fields := {[ "content" := "text"; "distance" := "0.12" ]} |}
    !! "distance" = Some s /\
    AnyString "0.12" = AnyString s.
Proof.
  apply (DocumentConverter_metadata_strings
           {| redisCli.ID := "notes.txt:doc_1";
              redisCli.Fields :=
                {[ "content" := "text"; "distance" := "0.12" ]} |}
           "distance" (AnyString "0.12")).
  vm_compute. reflexivity.
Defined.

(** X5.  Round trip through the store.  Let a hit carry, under ["content"]
    and ["metadata"], the values that the mapper stored for a document, and
    no field named ["source"].  The converted document has the original
    content, and the original source label under ["metadata"]; it has
    nothing under ["source"], so mapping it again stores an empty label. *)
Theorem index_retrieve_round_trip (filename filename' : string)
    (doc : schema.Document) (hit : redisCli.Document) :
  let h := fst (rag.DocumentToHashes filename doc) in
  redisCli.Fields hit !! "content" = Value <$> Field2Value h !! "content" ->
  redisCli.Fields hit !! "metadata" = Value <$> Field2Value h !! "metadata" ->
  redisCli.Fields hit !! "source" = None ->
  let d := fst (rag.DocumentConverter hit) in
  schema.Content d = schema.Content doc /\
  schema.MetaData d !! "metadata" = Some (AnyString (source_label doc)) /\
  schema.MetaData d !! "source" = None /\
  Field2Value (fst (rag.DocumentToHashes filename' d)) !! "metadata"
  = Some {| Value := ""; EmbedKey := "" |}.
Proof.
  intros h Hcontent Hmetadata Hsource d.
  destruct (DocumentConverter_spec hit) as (d' & E & _ & Hc & Hm).
  assert (Hd : d = d') by (unfold d; now rewrite E). rewrite Hd. clear Hd d.
  subst h. unfold rag.DocumentToHashes in Hcontent, Hmetadata.
  cbn [fst Field2Value] in Hcontent, Hmetadata.
  rewrite lookup_insert_eq in Hcontent.
  rewrite lookup_insert_ne, lookup_insert_eq in Hmetadata by discriminate.
  cbn [fmap option_fmap option_map Value] in Hcontent, Hmetadata.
  assert (Hsrc : schema.MetaData d' !! "source" = None).
  { rewrite Hm, lookup_fmap, lookup_delete_ne, Hsource by discriminate.
    reflexivity. }
  split; [now rewrite Hc, Hcontent|]. split; [|split].
  - rewrite Hm, lookup_fmap, lookup_delete_ne, Hmetadata by discriminate.
    unfold source_label.
    destruct (schema.MetaData doc !! "source") as [[| s | z | b]|];
      reflexivity.
  - exact Hsrc.
  - cbn. rewrite lookup_insert_ne, lookup_insert_eq by discriminate.
    now rewrite Hsrc.
Qed.

Lemma index_retrieve_round_trip_witness :
  let doc :=
    {| schema.ID := "doc_1"; schema.Content := "Go is a compiled language.";
       schema.MetaData := {[ "source" := AnyString "uploads/notes.txt" ]} |} in
  let hit :=
    {| redisCli.ID := "rag_docs:notes.txt:notes.txt:doc_1";
       redisCli.Fields :=
         {[ "content" := "Go is a compiled language.";
            "metadata" := "uploads/notes.txt";
            "distance" := "0.12" ]} |} in
  let d := fst (rag.DocumentConverter hit) in
  schema.Content d = "Go is a compiled language." /\
  schema.MetaData d !! "metadata" = Some (AnyString "uploads/notes.txt") /\
  schema.MetaData d !! "source" = None.
Proof.
  intros doc hit d.
  destruct (index_retrieve_round_trip "notes.txt" "notes.txt" doc hit)
    as (Hc & Hm & Hs & _); try (vm_compute; reflexivity).
  split; [exact Hc|]. split; [exact Hm | exact Hs].
Defined.
End ConverterMore.

(** ** The Prompt Builder, continued *)

Section PromptBuilderMore.

(** X6.  The prompt is the bare query only when there are no documents:
    with at least one document the query is always wrapped. *)
Theorem BuildRAGPrompt_eq_query_iff (query : string)
    (docs : list schema.Document) :
  rag.BuildRAGPrompt query docs = query <-> docs = [].
Proof.
  split.
  - destruct docs as [|doc docs]; [reflexivity|]. intros E. exfalso.
    unfold rag.BuildRAGPrompt in E.
    replace (Z.of_nat (length (doc :: docs)) =? 0)%Z with false in E
      by (symmetry; apply Z.eqb_neq; simpl length; lia).
    apply (f_equal String.length) in E. cbv zeta in E.
    rewrite !length_append in E.
    change (String.length LF) with 1%nat in E. lia.
  - intros ->. reflexivity.
Qed.

(** X7.  The loop numbers by position: running it over [docs1 ++ docs2] is
    running it over [docs1] and then over [docs2] with the count moved on by
    the length of [docs1]. *)
Theorem contextText_loop_app (docs1 docs2 : list schema.Document) :
  forall (i : Z) (acc : string),
    rag.contextText_loop i (docs1 ++ docs2) acc
    = rag.contextText_loop (i + Z.of_nat (length docs1)) docs2
        (rag.contextText_loop i docs1 acc).
Proof.
  induction docs1 as [|doc docs1 IH]; intros i acc.
  - cbn [app length rag.contextText_loop]. now rewrite Z.add_0_r.
  - cbn [app rag.contextText_loop]. rewrite IH. f_equal.
    simpl length. lia.
Qed.
End PromptBuilderMore.

(** ** The Indexing Pipeline, continued *)

Section IndexingPipelineMore.
Context `{rag.External}.
Import rag.

(** X8.  [NewRAGIndexer] returns either a handle and no error, or no handle
    and an error. *)
Theorem NewRAGIndexer_result_xor_error (filename embeddingModel : string)
    (w : World) :
  (exists r, fst (run (NewRAGIndexer filename embeddingModel) w)
             = (Some r, None)) \/
  (exists e, fst (run (NewRAGIndexer filename embeddingModel) w)
             = (None, Some e)).
Proof.
  unfold NewRAGIndexer. eff_unfold.
  repeat case_match; simplify_eq; cbn [fst]; eauto.
Qed.

(** X9.  An indexer is built only after the embedder was created and the
    Redis index of the same knowledge base was initialised, both without
    error and in that order, the index with the configured dimension; the
    indexer gets the key prefix of that knowledge base and that embedder. *)
Theorem NewRAGIndexer_index_before_indexer (filename embeddingModel : string)
    (w : World) (cfg : redisIndexer.IndexerConfig RedisClient Embedder)
    (out : Indexer * option error) :
  EvNewIndexer cfg out
    ∈ trace (snd (run (NewRAGIndexer filename embeddingModel) w)) ->
  exists ecfg embedder,
    trace (snd (run (NewRAGIndexer filename embeddingModel) w))
    = [ EvNewEmbedder ecfg (embedder, None);
        EvInitRedisIndex filename
          (config.RagDimension (config.RagModelConfig_ (config_GetConfig w)))
          None;
        EvNewIndexer cfg out ] /\
    embeddingArk.Model ecfg = embeddingModel /\
    redisIndexer.KeyPrefix cfg = redis_GenerateIndexNamePrefix filename /\
    redisIndexer.Embedding cfg = embedder.
Proof.
  unfold NewRAGIndexer. eff_unfold.
  repeat case_match; simplify_eq; cbn [snd trace app];
    intros Hin; trace_cases Hin; simplify_eq;
    eexists _, _; repeat split.
Qed.

(** X10.  When [NewRAGIndexer] returns an error, the last outside call it
    made is the one that failed, every call before it succeeded, and the
    error returned wraps the error of that call. *)
Theorem NewRAGIndexer_error_is_last_call (filename embeddingModel : string)
    (w : World) (res : option RAGIndexer) (r : error)
    (s : state World event) :
  run (NewRAGIndexer filename embeddingModel) w = ((res, Some r), s) ->
  res = None /\
  exists pre ev e,
    trace s = (pre ++ [ev])%list /\
    Forall (fun ev' => call_error ev' = None) pre /\
    call_error ev = Some e /\
    Unwrap r = Some e.
Proof.
  unfold NewRAGIndexer. eff_unfold. intros Hrun.
  repeat case_match; simplify_eq; (split; [reflexivity|]).
  - eexists [], _, _. cbn. repeat split. constructor.
  - eexists [_], _, _. cbn. repeat split. repeat constructor.
  - eexists [_; _], _, _. cbn. repeat split. repeat constructor.
Qed.

(** X11.  [IndexFile] returns [nil] exactly when it read the file and the
    store accepted the one document made from it. *)
Theorem IndexFile_nil_iff_stored (r : RAGIndexer) (filePath : string)
    (w : World) :
  fst (run (IndexFile r filePath) w) = None <->
  exists (content : string) (ids : list string),
    trace (snd (run (IndexFile r filePath) w))
    = [ EvReadFile filePath (content, None);
        EvStore (indexer r)
          [ {| schema.ID := "doc_1";
               schema.Content := content;
               schema.MetaData := {[ "source" := AnyString filePath ]} |} ]
          (ids, None) ].
Proof.
  unfold IndexFile. eff_unfold.
  destruct (os_ReadFile filePath w) as [[content [e|]] w1];
    cbn [fst snd trace app world].
  - split; [discriminate|]. intros (content' & ids & E). inversion E.
  - destruct (Indexer_Store _ _ w1) as [[ids [e|]] w2];
      cbn [fst snd trace app world].
    + split; [discriminate|]. intros (content' & ids' & E).
      inversion E.
    + split; [|reflexivity]. intros _. now exists content, ids.
Qed.

(** X12.  When [IndexFile] returns an error, the last outside call it made
    is the one that failed, every call before it succeeded, and the error
    returned wraps the error of that call; after a failed read the store is
    not called. *)
Theorem IndexFile_error_is_last_call (r : RAGIndexer) (filePath : string)
    (w : World) (err : error) :
  fst (run (IndexFile r filePath) w) = Some err ->
  exists pre ev e,
    trace (snd (run (IndexFile r filePath) w)) = (pre ++ [ev])%list /\
    Forall (fun ev' => call_error ev' = None) pre /\
    call_error ev = Some e /\
    Unwrap err = Some e /\
    (forall content, ev = EvReadFile filePath (content, Some e) -> pre = []).
Proof.
  unfold IndexFile. eff_unfold.
  repeat case_match; simplify_eq; cbn [fst snd trace app]; intros Herr;
    simplify_eq.
  - eexists [], _, _. cbn. repeat split. constructor.
  - eexists [_], _, _. cbn. repeat split; [repeat constructor|].
    intros content. discriminate.
Qed.

(** X13.  Whatever file [IndexFile] hands to the store, the mapper of the
    knowledge base [filename] gives it the one key [filename:doc_1], with
    the content that was read and the file path as label: two files indexed
    into one knowledge base share their key. *)
Theorem IndexFile_key_is_fixed (r : RAGIndexer) (filename filePath : string)
    (w : World) (idx : Indexer) (docs : list schema.Document)
    (out : list string * option error) :
  EvStore idx docs out ∈ trace (snd (run (IndexFile r filePath) w)) ->
  exists content : string,
    EvReadFile filePath (content, None)
      ∈ trace (snd (run (IndexFile r filePath) w)) /\
    map (fun d => fst (DocumentToHashes filename d)) docs
    = [ {| redisIndexer.Key := filename ++ ":doc_1";
           redisIndexer.Field2Value :=
             <["content" := {| redisIndexer.Value := content;
                               redisIndexer.EmbedKey := "vector" |}]>
             (<["metadata" := {| redisIndexer.Value := filePath;
                                 redisIndexer.EmbedKey := "" |}]> ∅) |} ].
Proof.
  unfold IndexFile. eff_unfold.
  repeat case_match; simplify_eq; cbn [fst snd trace app];
    intros Hin; trace_cases Hin; simplify_eq.
  all: eexists; (split; [apply elem_of_cons; left; reflexivity|]).
  all: unfold DocumentToHashes; cbn [map fst schema.MetaData schema.ID
                                     schema.Content].
  all: rewrite lookup_singleton_eq; reflexivity.
Qed.
End IndexingPipelineMore.

Lemma NewRAGIndexer_index_before_indexer_witness :
  exists cfg out ecfg embedder,
    trace (snd (run (@rag.NewRAGIndexer sim.rag_external
                       "notes.txt" "embedding-v1") sim.w0))
    = [ @rag.EvNewEmbedder sim.rag_external ecfg (embedder, None);
        @rag.EvInitRedisIndex sim.rag_external "notes.txt" 1024 None;
        @rag.EvNewIndexer sim.rag_external cfg out ] /\
    redisIndexer.KeyPrefix cfg = "rag_docs:notes.txt:".
Proof.
  assert (Hin : exists cfg out,
             @rag.EvNewIndexer sim.rag_external cfg out
               ∈ trace (snd (run (@rag.NewRAGIndexer sim.rag_external
                                    "notes.txt" "embedding-v1") sim.w0))).
  { eexists _, _. apply elem_of_cons. right. apply elem_of_cons. right.
    apply elem_of_cons. left. reflexivity. }
  destruct Hin as (cfg & out & Hin).
  destruct (@NewRAGIndexer_index_before_indexer sim.rag_external
              "notes.txt" "embedding-v1" sim.w0 cfg out Hin)
    as (ecfg & embedder & Htrace & _ & Hprefix & _).
  exists cfg, out, ecfg, embedder. split; [exact Htrace | exact Hprefix].
Defined.

Lemma NewRAGIndexer_error_is_last_call_witness :
  exists r s,
    run (@rag.NewRAGIndexer sim.rag_external "notes.txt" "embedding-v1")
      sim.w_down = ((None, Some r), s) /\
    exists pre ev e,
      trace s = (pre ++ [ev])%list /\
      Forall (fun ev' => @call_error sim.rag_external ev' = None) pre /\
      @call_error sim.rag_external ev = Some e /\
      Unwrap r = Some e.
Proof.
  assert (Hrun : exists res r s,
             run (@rag.NewRAGIndexer sim.rag_external
                    "notes.txt" "embedding-v1") sim.w_down
             = ((res, Some r), s))
    by (eexists _, _, _; vm_compute; reflexivity).
  destruct Hrun as (res & r & s & Hrun).
  destruct (@NewRAGIndexer_error_is_last_call sim.rag_external
              "notes.txt" "embedding-v1" sim.w_down res r s Hrun)
    as (Hres & Hlast).
  subst res. exists r, s. split; [exact Hrun | exact Hlast].
Defined.

Lemma IndexFile_error_is_last_call_witness :
  exists err,
    fst (run (@rag.IndexFile sim.rag_external sim.indexer0 "missing.txt")
           sim.w0) = Some err /\
    exists pre ev e,
      trace (snd (run (@rag.IndexFile sim.rag_external sim.indexer0
                         "missing.txt") sim.w0)) = (pre ++ [ev])%list /\
      @call_error sim.rag_external ev = Some e /\
      Unwrap err = Some e.
Proof.
  assert (Hfst : exists err,
             fst (run (@rag.IndexFile sim.rag_external sim.indexer0
                         "missing.txt") sim.w0) = Some err)
    by (eexists; vm_compute; reflexivity).
  destruct Hfst as (err & Hfst).
  destruct (@IndexFile_error_is_last_call sim.rag_external sim.indexer0
              "missing.txt" sim.w0 err Hfst)
    as (pre & ev & e & Htrace & _ & Hev & Hunwrap & _).
  exists err. split; [exact Hfst|].
  exists pre, ev, e. split; [exact Htrace|]. split; [exact Hev | exact Hunwrap].
Defined.

Lemma IndexFile_key_is_fixed_witness :
  exists docs,
    map (fun d => fst (rag.DocumentToHashes "notes.txt" d)) docs
    = [ {| redisIndexer.Key := "notes.txt:doc_1";
           redisIndexer.Field2Value :=
             {[ "content" :=
                  {| redisIndexer.Value := "Go is a compiled language.";
                     redisIndexer.EmbedKey := "vector" |};
                "metadata" :=
                  {| redisIndexer.Value := "uploads/alice/notes.txt";
                     redisIndexer.EmbedKey := "" |} ]} |} ].
Proof.
  assert (Hin : exists idx docs out,
             @rag.EvStore sim.rag_external idx docs out
               ∈ trace (snd (run (@rag.IndexFile sim.rag_external
                                    sim.indexer0 "uploads/alice/notes.txt")
                               sim.w0))).
  { eexists _, _, _. apply elem_of_cons. right. apply elem_of_cons. left.
    reflexivity. }
  destruct Hin as (idx & docs & out & Hin).
  destruct (@IndexFile_key_is_fixed sim.rag_external sim.indexer0 "notes.txt"
              "uploads/alice/notes.txt" sim.w0 idx docs out Hin)
    as (content & Hread & Hmap).
  exists docs. rewrite Hmap.
  apply elem_of_cons in Hread as [Hread|Hread].
  - injection Hread as <-. reflexivity.
  - apply elem_of_cons in Hread as [Hread|Hread]; [discriminate Hread|].
    apply elem_of_nil in Hread. contradiction.
Defined.

(** ** The Retrieval Pipeline, continued *)

Lemma first_file_all_dirs (files : list os.DirEntry) (d : string) :
  Forall (fun f => os.IsDir f = true) files -> rag.first_file files d = d.
Proof.
  induction 1 as [|f files Hf _ IH]; [reflexivity|].
  cbn [rag.first_file]. now rewrite Hf.
Qed.

Lemma first_file_found (files : list os.DirEntry) (d : string) :
  rag.first_file files d <> d ->
  exists dirs f rest,
    files = (dirs ++ f :: rest)%list /\
    Forall (fun f' => os.IsDir f' = true) dirs /\
    os.IsDir f = false /\
    rag.first_file files d = os.Name f.
Proof.
  induction files as [|f files IH]; intros Hne; [contradiction|].
  cbn [rag.first_file] in *.
  destruct (os.IsDir f) eqn:Hdir; cbn [negb] in *.
  - destruct (IH Hne) as (dirs & f' & rest & -> & Hdirs & Hf' & Hname).
    exists (f :: dirs), f', rest. split; [reflexivity|].
    split; [constructor; assumption|]. split; assumption.
  - exists [], f, files. split; [reflexivity|].
    split; [constructor|]. split; [exact Hdir | reflexivity].
Qed.

Section RetrievalPipelineMore.
Context `{rag.External}.
Import rag.

(** The guard on the directory listing, as a proposition. *)
Lemma listing_guard (files : list os.DirEntry) (err : option error) :
  bool_decide (err ≠ None) || (Z.of_nat (length files) =? 0)%Z = false <->
  err = None /\ files <> [].
Proof.
  rewrite orb_false_iff, bool_decide_eq_false, Z.eqb_neq. split.
  - intros [Herr Hlen]. split.
    + destruct err; [exfalso; apply Herr; discriminate | reflexivity].
    + intros ->. apply Hlen. reflexivity.
  - intros [-> Hne]. split; [intros Hn; now apply Hn|].
    destruct files; [contradiction | cbn; lia].
Qed.

(** X14.  A retriever is only built for the first entry of the user's
    upload directory that is not a directory: the listing was read without
    error from [uploads/<username>], every entry before that one is a
    directory, its name is not empty, and the index searched is the one
    named after it.  The entries after it play no part. *)
Theorem NewRAGQuery_first_file_only (username : string) (w : World)
    (cfg : redisRetriever.RetrieverConfig RedisClient Embedder)
    (out : Retriever * option error) :
  EvNewRetriever cfg out ∈ trace (snd (run (NewRAGQuery username) w)) ->
  exists dirs f rest,
    EvReadDir ("uploads/" ++ username) ((dirs ++ f :: rest)%list, None)
      ∈ trace (snd (run (NewRAGQuery username) w)) /\
    Forall (fun f' => os.IsDir f' = true) dirs /\
    os.IsDir f = false /\
    os.Name f <> "" /\
    redisRetriever.Index cfg = redis_GenerateIndexName (os.Name f).
Proof.
  unfold NewRAGQuery. eff_unfold.
  destruct (embeddingArk_NewEmbedder _ w) as [[embedder [e|]] w1];
    cbn [fst snd trace app world].
  { intros Hin. trace_cases Hin. discriminate Hin. }
  destruct (os_ReadDir _ w1) as [[files err] w2];
    cbn [fst snd trace app world].
  destruct (bool_decide (err ≠ None) || (Z.of_nat (length files) =? 0)%Z)
    eqn:Hguard; cbn [fst snd trace app world].
  { intros Hin. trace_cases Hin; discriminate Hin. }
  apply listing_guard in Hguard as [-> Hfiles].
  destruct (String.eqb_spec (first_file files "") "") as [Hempty|Hname];
    cbn [fst snd trace app world].
  { intros Hin. trace_cases Hin; discriminate Hin. }
  destruct (first_file_found files "" Hname)
    as (dirs & f & rest & -> & Hdirs & Hf & Hfirst).
  destruct (redisRetriever_NewRetriever _ w2) as [[rtr [e|]] w3];
    cbn [fst snd trace app world];
    intros Hin; trace_cases Hin; simplify_eq;
    exists dirs, f, rest;
    (split; [apply elem_of_cons; right; apply elem_of_cons; left;
             reflexivity|]);
    (split; [exact Hdirs|]); (split; [exact Hf|]);
    (split; [now rewrite <- Hfirst|]);
    cbn [redisRetriever.Index]; now rewrite Hfirst.
Qed.

(** X15.  When the listing of the upload directory fails or is empty,
    [NewRAGQuery] returns the error "no uploaded file found for user
    <username>", which wraps nothing: the cause of a failed listing is
    dropped, and the two cases cannot be told apart.  No retriever is
    built. *)
Theorem NewRAGQuery_no_listing (username : string) (w : World) (dir : string)
    (files : list os.DirEntry) (err : option error) :
  EvReadDir dir (files, err) ∈ trace (snd (run (NewRAGQuery username) w)) ->
  err <> None \/ files = [] ->
  fst (run (NewRAGQuery username) w)
  = (None,
     Some (errorString ("no uploaded file found for user " ++ username))) /\
  last (trace (snd (run (NewRAGQuery username) w)))
  = Some (EvReadDir dir (files, err)).
Proof.
  unfold NewRAGQuery. eff_unfold.
  destruct (embeddingArk_NewEmbedder _ w) as [[embedder [e|]] w1];
    cbn [fst snd trace app world].
  { intros Hin. trace_cases Hin. discriminate Hin. }
  destruct (os_ReadDir _ w1) as [[files' err'] w2];
    cbn [fst snd trace app world].
  destruct (bool_decide (err' ≠ None) || (Z.of_nat (length files') =? 0)%Z)
    eqn:Hguard; cbn [fst snd trace app world].
  { intros Hin _. trace_cases Hin; simplify_eq. split; reflexivity. }
  apply listing_guard in Hguard as [-> Hfiles].
  assert (Hno : forall ev : event,
             ev = EvReadDir dir (files, err) ->
             ev = EvReadDir ("uploads/" ++ username) (files', None) ->
             err <> None \/ files = [] -> False).
  { intros ev -> [= -> -> ->] [Herr|Hnil]; [now apply Herr | now apply Hfiles]. }
  destruct (String.eqb (first_file files' "") "");
    cbn [fst snd trace app world].
  { intros Hin Hor. exfalso. trace_cases Hin; try discriminate Hin.
    exact (Hno _ eq_refl Hin Hor). }
  destruct (redisRetriever_NewRetriever _ w2) as [[rtr [e|]] w3];
    cbn [fst snd trace app world];
    intros Hin Hor; exfalso; trace_cases Hin; try discriminate Hin;
    exact (Hno _ eq_refl Hin Hor).
Qed.

(** X16.  When the upload directory lists only directories, [NewRAGQuery]
    returns the error "no valid file found for user <username>" and builds
    no retriever. *)
Theorem NewRAGQuery_only_directories (username : string) (w : World)
    (dir : string) (files : list os.DirEntry) :
  EvReadDir dir (files, None) ∈ trace (snd (run (NewRAGQuery username) w)) ->
  files <> [] ->
  Forall (fun f => os.IsDir f = true) files ->
  fst (run (NewRAGQuery username) w)
  = (None, Some (errorString ("no valid file found for user " ++ username))) /\
  last (trace (snd (run (NewRAGQuery username) w)))
  = Some (EvReadDir dir (files, None)).
Proof.
  unfold NewRAGQuery. eff_unfold.
  destruct (embeddingArk_NewEmbedder _ w) as [[embedder [e|]] w1];
    cbn [fst snd trace app world].
  { intros Hin. trace_cases Hin. discriminate Hin. }
  destruct (os_ReadDir _ w1) as [[files' err'] w2];
    cbn [fst snd trace app world].
  destruct (bool_decide (err' ≠ None) || (Z.of_nat (length files') =? 0)%Z)
    eqn:Hguard; cbn [fst snd trace app world].
  { intros Hin Hne _. exfalso. trace_cases Hin; simplify_eq.
    apply not_false_iff_true in Hguard. apply Hguard.
    now apply listing_guard. }
  apply listing_guard in Hguard as [-> Hfiles].
  destruct (String.eqb_spec (first_file files' "") "") as [Hempty|Hname];
    cbn [fst snd trace app world].
  { intros Hin Hne Hdirs. trace_cases Hin; simplify_eq. split; reflexivity. }
  destruct (redisRetriever_NewRetriever _ w2) as [[rtr [e|]] w3];
    cbn [fst snd trace app world];
    intros Hin Hne Hdirs; exfalso; trace_cases Hin; simplify_eq;
    apply Hname; now apply first_file_all_dirs.
Qed.

(** X17.  [NewRAGQuery] returns either a handle and no error, or no handle
    and an error. *)
Theorem NewRAGQuery_result_xor_error (username : string) (w : World) :
  (exists q, fst (run (NewRAGQuery username) w) = (Some q, None)) \/
  (exists e, fst (run (NewRAGQuery username) w) = (None, Some e)).
Proof.
  unfold NewRAGQuery. eff_unfold.
  repeat case_match; simplify_eq; cbn [fst]; eauto.
Qed.

(** X18.  Index side and query side create their embedders with the same
    endpoint and key when configuration and environment are the same, but
    the index side embeds with the model it is given and the query side
    with the configured one: the two configurations are equal exactly when
    the model given is the configured model. *)
Theorem embedder_configs_agree (filename embeddingModel username : string)
    (w w' : World) (c1 c2 : embeddingArk.EmbeddingConfig)
    (o1 o2 : Embedder * option error) :
  config_GetConfig w = config_GetConfig w' ->
  os_Getenv "OPENAI_API_KEY" w = os_Getenv "OPENAI_API_KEY" w' ->
  EvNewEmbedder c1 o1
    ∈ trace (snd (run (NewRAGIndexer filename embeddingModel) w)) ->
  EvNewEmbedder c2 o2 ∈ trace (snd (run (NewRAGQuery username) w')) ->
  c1 = c2 <->
  embeddingModel
  = config.RagEmbeddingModel (config.RagModelConfig_ (config_GetConfig w)).
Proof.
  intros Hcfg Henv.
  unfold NewRAGIndexer, NewRAGQuery. eff_unfold.
  rewrite <- Hcfg, <- Henv.
  intros Hin1 Hin2.
  assert (Hc1 : c1 = {| embeddingArk.BaseURL :=
                          config.RagBaseUrl
                            (config.RagModelConfig_ (config_GetConfig w));
                        embeddingArk.APIKey := os_Getenv "OPENAI_API_KEY" w;
                        embeddingArk.Model := embeddingModel |}).
  { revert Hin1. repeat case_match; simplify_eq; cbn [snd trace app];
      intros Hin1; trace_cases Hin1; simplify_eq; reflexivity. }
  assert (Hc2 : c2 = {| embeddingArk.BaseURL :=
                          config.RagBaseUrl
                            (config.RagModelConfig_ (config_GetConfig w));
                        embeddingArk.APIKey := os_Getenv "OPENAI_API_KEY" w;
                        embeddingArk.Model :=
                          config.RagEmbeddingModel
                            (config.RagModelConfig_ (config_GetConfig w)) |}).
  { revert Hin2. repeat case_match; simplify_eq; cbn [snd trace app];
      intros Hin2; trace_cases Hin2; simplify_eq; reflexivity. }
  rewrite Hc1, Hc2. split; [intros [= ->]; reflexivity | intros ->; reflexivity].
Qed.

(** X19.  [RetrieveDocuments] makes one call to the retriever with the
    query as it is.  On success it returns the documents as the retriever
    answered them, in the same order and number.  On failure it returns no
    document and an error that wraps the retriever's, so a prompt built from
    what it returned is the bare query. *)
Theorem RetrieveDocuments_then_prompt (r : RAGQuery) (query : string)
    (w : World) :
  exists (out : list schema.Document * option error),
    trace (snd (run (RetrieveDocuments r query) w))
    = [EvRetrieve (retriever r) query out] /\
    match snd out with
    | None => fst (run (RetrieveDocuments r query) w) = (fst out, None)
    | Some e =>
      exists err,
        fst (run (RetrieveDocuments r query) w) = ([], Some err) /\
        Unwrap err = Some e /\
        BuildRAGPrompt query (fst (fst (run (RetrieveDocuments r query) w)))
        = query
    end.
Proof.
  unfold RetrieveDocuments. eff_unfold.
  destruct (Retriever_Retrieve (retriever r) query w) as [[docs [e|]] w1];
    cbn [fst snd trace app world].
  - exists (docs, Some e). split; [reflexivity|]. cbn [snd].
    eexists. split; [reflexivity|]. split; reflexivity.
  - exists (docs, None). split; reflexivity.
Qed.
End RetrievalPipelineMore.

Lemma NewRAGQuery_first_file_only_witness :
  exists (cfg : redisRetriever.RetrieverConfig unit
                  embeddingArk.EmbeddingConfig) dirs f rest,
    @rag.EvReadDir sim.rag_external "uploads/alice"
      ((dirs ++ f :: rest)%list, None)
      ∈ trace (snd (run (@rag.NewRAGQuery sim.rag_external "alice") sim.w0)) /\
    Forall (fun f' => os.IsDir f' = true) dirs /\
    os.IsDir f = false /\
    os.Name f <> "" /\
    redisRetriever.Index cfg = "rag_docs:" ++ os.Name f ++ ":idx".
Proof.
  assert (Hin : exists cfg out,
             @rag.EvNewRetriever sim.rag_external cfg out
               ∈ trace (snd (run (@rag.NewRAGQuery sim.rag_external "alice")
                               sim.w0))).
  { eexists _, _. apply elem_of_cons. right. apply elem_of_cons. right.
    apply elem_of_cons. left. reflexivity. }
  destruct Hin as (cfg & out & Hin).
  destruct (@NewRAGQuery_first_file_only sim.rag_external "alice" sim.w0
              cfg out Hin)
    as (dirs & f & rest & Hread & Hdirs & Hf & Hname & Hindex).
  exists cfg, dirs, f, rest.
  split; [exact Hread|]. split; [exact Hdirs|]. split; [exact Hf|].
  split; [exact Hname | exact Hindex].
Defined.

Lemma NewRAGQuery_no_listing_witness :
  fst (run (@rag.NewRAGQuery sim.rag_external "carol") worlds.w_dirs)
  = (None, Some (errorString "no uploaded file found for user carol")) /\
  fst (run (@rag.NewRAGQuery sim.rag_external "dave") worlds.w_dirs)
  = (None, Some (errorString "no uploaded file found for user dave")).
Proof.
  split.
  - refine (proj1 (@NewRAGQuery_no_listing sim.rag_external "carol"
                     worlds.w_dirs "uploads/carol" [] None _ _)).
    + apply elem_of_cons. right. apply elem_of_cons. left. reflexivity.
    + right. reflexivity.
  - refine (proj1 (@NewRAGQuery_no_listing sim.rag_external "dave"
                     worlds.w_dirs "uploads/dave" []
                     (Some (errorString
                        "open uploads/dave: no such file or directory"))
                     _ _)).
    + apply elem_of_cons. right. apply elem_of_cons. left. reflexivity.
    + left. discriminate.
Defined.

Lemma NewRAGQuery_only_directories_witness :
  fst (run (@rag.NewRAGQuery sim.rag_external "alice") worlds.w_dirs)
  = (None, Some (errorString "no valid file found for user alice")).
Proof.
  refine (proj1 (@NewRAGQuery_only_directories sim.rag_external "alice"
                   worlds.w_dirs "uploads/alice"
                   [ {| os.Name := "tmp"; os.IsDir := true |};
                     {| os.Name := "old"; os.IsDir := true |} ] _ _ _)).
  - apply elem_of_cons. right. apply elem_of_cons. left. reflexivity.
  - discriminate.
  - repeat constructor.
Defined.

Lemma embedder_configs_agree_witness :
  exists c1 o1 c2 o2,
    @rag.EvNewEmbedder sim.rag_external c1 o1
      ∈ trace (snd (run (@rag.NewRAGIndexer sim.rag_external
                           "notes.txt" "embedding-v1") sim.w0)) /\
    @rag.EvNewEmbedder sim.rag_external c2 o2
      ∈ trace (snd (run (@rag.NewRAGQuery sim.rag_external "alice") sim.w0)) /\
    c1 = c2.
Proof.
  assert (Hin1 : exists c1 o1,
             @rag.EvNewEmbedder sim.rag_external c1 o1
               ∈ trace (snd (run (@rag.NewRAGIndexer sim.rag_external
                                    "notes.txt" "embedding-v1") sim.w0))).
  { eexists _, _. apply elem_of_cons. left. reflexivity. }
  assert (Hin2 : exists c2 o2,
             @rag.EvNewEmbedder sim.rag_external c2 o2
               ∈ trace (snd (run (@rag.NewRAGQuery sim.rag_external "alice")
                               sim.w0))).
  { eexists _, _. apply elem_of_cons. left. reflexivity. }
  destruct Hin1 as (c1 & o1 & Hin1). destruct Hin2 as (c2 & o2 & Hin2).
  exists c1, o1, c2, o2. split; [exact Hin1|]. split; [exact Hin2|].
  apply (@embedder_configs_agree sim.rag_external "notes.txt" "embedding-v1"
           "alice" sim.w0 sim.w0 c1 c2 o1 o2 eq_refl eq_refl Hin1 Hin2).
  reflexivity.
Defined.

(** ** The user DAO, continued *)

Section UserDAOMore.
Context `{user.External}.
Import user.

(** X20.  The flag and the user returned by [IsExistUser] go together:
    [true] comes with a user, [false] with [nil]. *)
Theorem IsExistUser_result_consistent (username : string) (db : DB) :
  (exists u : model.User,
     fst (run (IsExistUser username) db) = (true, Some u)) \/
  fst (run (IsExistUser username) db) = (false, None).
Proof.
  unfold IsExistUser. eff_unfold.
  destruct (mysql_GetUserByUsername username db) as [[[u1|] e1] db1]; guards;
    eauto.
  all: destruct (mysql_GetUserByEmail username db1) as [[[u2|] e2] db2];
    guards; eauto.
Qed.

(** X21.  [IsExistUser] queries by username first, with the string it was
    given, and stops there when that query answers a user without error or
    fails with an error other than record-not-found.  Otherwise, when the
    answer is record-not-found or no user and no error, it makes one more
    query, by email with the same string.  It makes no other call. *)
Theorem IsExistUser_queries (username : string) (db : DB) :
  exists o1 : option model.User * option error,
    (trace (snd (run (IsExistUser username) db))
     = [EvGetUserByUsername username o1] /\
     ((snd o1 = None /\ fst o1 <> None) \/
      (exists e, snd o1 = Some e /\ e <> ErrRecordNotFound))) \/
    (exists o2 : option model.User * option error,
       trace (snd (run (IsExistUser username) db))
       = [EvGetUserByUsername username o1; EvGetUserByEmail username o2] /\
       (snd o1 = Some ErrRecordNotFound \/ (snd o1 = None /\ fst o1 = None))).
Proof.
  unfold IsExistUser. eff_unfold.
  destruct (mysql_GetUserByUsername username db) as [[u1 e1] db1].
  exists (u1, e1). cbn [fst snd].
  destruct u1 as [u1|], e1 as [e1|]; guards.
  all: try (left; split; [reflexivity|]; eauto; fail).
  all: try (left; split; [reflexivity|]; right; eexists; split;
            [reflexivity | congruence]; fail).
  all: right;
    destruct (mysql_GetUserByEmail username db1) as [[u2 e2] db2];
    exists (u2, e2); guards; (split; [reflexivity|]); eauto.
Qed.
End UserDAOMore.
